(** * The planner bridge: [create], [plan], [plan2] and the invocation scripts

    A shallow embedding of the router-bridge planner module (the functions
    [plan], [create] and [plan2] together with the module-level bindings
    [SCHEMA], [COMPOSED_SCHEMA] and [PLANNER]) and of the two invocation
    scripts [planner_create.ts] and [planner_plan.ts].

    The GraphQL and federation libraries ([graphql], [@apollo/query-planner],
    [@apollo/federation-internals]) are external: they are taken as an
    interface, the class [Library].  Every call into them either returns a
    value or throws; the embedding records each call in a ghost log so that
    "this step is never invoked" can be stated. *)

From Stdlib Require Import String List Bool.
Import ListNotations.
Local Open Scope string_scope.
Local Open Scope list_scope.

Set Implicit Arguments.

(** ** JavaScript values crossing the bridge *)

(** A value that can be thrown or reported as an error: an error object made
    by a library, or the [TypeError] the runtime raises when a member of
    [undefined] is read. *)
Inductive ErrorValue (X : Type) : Type :=
| LibraryError (x : X)
| TypeError (msg : string).

Arguments LibraryError {X} x.
Arguments TypeError {X} msg.

(** How the evaluation of an expression or statement ends: normally with a
    value, or abruptly with a thrown value. *)
Inductive Completion (E A : Type) : Type :=
| Normal (a : A)
| Abrupt (e : E).

Arguments Normal {E A} a.
Arguments Abrupt {E A} e.

(** ** The external libraries *)

Class Library : Type := {
  (** [Schema] of federation-internals (the composed schema and its API
      view are both instances of it) *)
  Schema : Type;
  (** [GraphQLSchema] of graphql-js *)
  GraphQLSchema : Type;
  (** [DocumentNode] *)
  Document : Type;
  Operation : Type;
  QueryPlanner : Type;
  QueryPlan : Type;
  (** error objects the libraries create *)
  LibError : Type;

  buildSchema : string -> Completion (ErrorValue LibError) Schema;
  toAPISchema : Schema -> Completion (ErrorValue LibError) Schema;
  toGraphQLJSSchema : Schema -> Completion (ErrorValue LibError) GraphQLSchema;
  parse : string -> Completion (ErrorValue LibError) Document;
  (** the schema argument of the next three is [None] when the caller passes
      [undefined] *)
  validate : option GraphQLSchema -> Document ->
             Completion (ErrorValue LibError) (list (ErrorValue LibError));
  operationFromDocument : option Schema -> Document -> option string ->
                          Completion (ErrorValue LibError) Operation;
  newQueryPlanner : option Schema -> Completion (ErrorValue LibError) QueryPlanner;
  buildQueryPlan : QueryPlanner -> Operation ->
                   Completion (ErrorValue LibError) QueryPlan
}.

Section Bridge.

Context {L : Library}.

Definition Err : Type := ErrorValue LibError.

(** ** Data *)

(** [ExecutionResult<QueryPlan>]: an object literal with an optional
    [errors] and an optional [data] property; [None] is "property absent",
    which reads as [undefined]. *)
Record ExecutionResult : Type := {
  errors : option (list Err);
  data : option QueryPlan
}.

(** The payload of the [Ok] property of an [OperationResult]. *)
Inductive Payload : Type :=
| JsNull
| JsUndefined
| JsPlan (p : QueryPlan).

(** [OperationResult], the Result Envelope: an object literal with an [Ok]
    or an [Err] property; [None] is "property absent". *)
Record OperationResult : Type := {
  Ok : option Payload;
  Err_ : option (list Err)
}.

(** The module-level bindings; [let X: T;] without initialiser leaves the
    binding [undefined], here [None]. *)
Record Session : Type := {
  SCHEMA : option GraphQLSchema;
  COMPOSED_SCHEMA : option Schema;
  PLANNER : option QueryPlanner
}.

Definition uninitialized : Session :=
  {| SCHEMA := None; COMPOSED_SCHEMA := None; PLANNER := None |}.

(** The calls into the libraries, with their arguments. *)
Inductive Event : Type :=
| CallBuildSchema (schemaString : string)
| CallToAPISchema (composed : Schema)
| CallToGraphQLJSSchema (api : Schema)
| CallParse (operationString : string)
| CallValidate (schema : option GraphQLSchema) (doc : Document)
| CallOperationFromDocument (composed : option Schema) (doc : Document)
                            (operationName : option string)
| CallNewQueryPlanner (composed : option Schema)
| CallBuildQueryPlan (planner : QueryPlanner) (op : Operation).

(** What a run can change: the session bindings, the (ghost) log of library
    calls, and the envelopes the host's [done] callback has received. *)
Record World : Type := {
  session : Session;
  calls : list Event;
  delivered : list OperationResult
}.

(** ** The monad of the embedding

    State passing with abrupt completion.  A throw keeps every assignment
    made before it, as in JavaScript. *)
Definition M (A : Type) : Type := World -> Completion Err A * World.

Definition ret {A} (a : A) : M A := fun w => (Normal a, w).

Definition bind {A B} (m : M A) (k : A -> M B) : M B :=
  fun w =>
    match m w with
    | (Normal a, w') => k a w'
    | (Abrupt e, w') => (Abrupt e, w')
    end.

Definition throw {A} (e : Err) : M A := fun w => (Abrupt e, w).

(** [try { body } catch (e) { handler }] *)
Definition try_catch {A} (body : M A) (handler : Err -> M A) : M A :=
  fun w =>
    match body w with
    | (Normal a, w') => (Normal a, w')
    | (Abrupt e, w') => handler e w'
    end.

Notation "x <- m ;; k" := (bind m (fun x => k))
  (at level 61, m at next level, right associativity).
Notation "m ;;; k" := (bind m (fun _ => k))
  (at level 61, right associativity).

(** A call into a library: logged, then its completion. *)
Definition call {A} (ev : Event) (c : Completion Err A) : M A :=
  fun w =>
    (c, {| session := session w; calls := calls w ++ [ev];
           delivered := delivered w |}).

(** A method call [receiver.name(...)]: reading a member of [undefined]
    throws a [TypeError] before anything is called. *)
Definition member {A B} (receiver : option A) (name : string)
    (method : A -> M B) : M B :=
  match receiver with
  | Some r => method r
  | None =>
      throw (TypeError ("Cannot read properties of undefined (reading '"
                        ++ name ++ "')")%string)
  end.

Definition read {A} (field : Session -> A) : M A :=
  fun w => (Normal (field (session w)), w).

Definition assign (f : Session -> Session) : M unit :=
  fun w =>
    (Normal tt, {| session := f (session w); calls := calls w;
                   delivered := delivered w |}).

Definition set_SCHEMA (v : GraphQLSchema) (s : Session) : Session :=
  {| SCHEMA := Some v; COMPOSED_SCHEMA := COMPOSED_SCHEMA s;
     PLANNER := PLANNER s |}.
Definition set_COMPOSED_SCHEMA (v : Schema) (s : Session) : Session :=
  {| SCHEMA := SCHEMA s; COMPOSED_SCHEMA := Some v; PLANNER := PLANNER s |}.
Definition set_PLANNER (v : QueryPlanner) (s : Session) : Session :=
  {| SCHEMA := SCHEMA s; COMPOSED_SCHEMA := COMPOSED_SCHEMA s;
     PLANNER := Some v |}.

(** The host's completion callback: it receives the envelope and returns. *)
Definition done (r : OperationResult) : M unit :=
  fun w =>
    (Normal tt, {| session := session w; calls := calls w;
                   delivered := delivered w ++ [r] |}).

(** [x.length > 0] *)
Definition nonempty {A} (l : list A) : bool :=
  match l with [] => false | _ :: _ => true end.

(** ** The planner module *)

(** [{ errors: l }] and [{ data: p }] *)
Definition with_errors (l : list Err) : ExecutionResult :=
  {| errors := Some l; data := None |}.
Definition with_data (p : QueryPlan) : ExecutionResult :=
  {| errors := None; data := Some p |}.

(** [plan(schemaString, operationString, operationName)], the one-shot form *)
Definition plan (schemaString operationString : string)
    (operationName : option string) : M ExecutionResult :=
  try_catch
    (composedSchema <- call (CallBuildSchema schemaString)
                            (buildSchema schemaString) ;;
     apiSchema <- call (CallToAPISchema composedSchema)
                       (toAPISchema composedSchema) ;;
     operationDocument <- call (CallParse operationString)
                               (parse operationString) ;;
     graphqlJsSchema <- call (CallToGraphQLJSSchema apiSchema)
                             (toGraphQLJSSchema apiSchema) ;;
     validationErrors <-
       call (CallValidate (Some graphqlJsSchema) operationDocument)
            (validate (Some graphqlJsSchema) operationDocument) ;;
     if nonempty validationErrors then ret (with_errors validationErrors)
     else
       operation <-
         call (CallOperationFromDocument (Some composedSchema)
                 operationDocument operationName)
              (operationFromDocument (Some composedSchema) operationDocument
                 operationName) ;;
       planner <- call (CallNewQueryPlanner (Some composedSchema))
                       (newQueryPlanner (Some composedSchema)) ;;
       queryPlan <- call (CallBuildQueryPlan planner operation)
                         (buildQueryPlan planner operation) ;;
       ret (with_data queryPlan))
    (fun e => ret (with_errors [e])).

(** [create(schemaString)]: no [try]; a throw leaves through the caller. *)
Definition create (schemaString : string) : M unit :=
  composed <- call (CallBuildSchema schemaString) (buildSchema schemaString) ;;
  assign (set_COMPOSED_SCHEMA composed) ;;;
  receiver <- read COMPOSED_SCHEMA ;;
  apiSchema <- member receiver "toAPISchema"
                 (fun c => call (CallToAPISchema c) (toAPISchema c)) ;;
  graphqlJsSchema <- call (CallToGraphQLJSSchema apiSchema)
                          (toGraphQLJSSchema apiSchema) ;;
  assign (set_SCHEMA graphqlJsSchema) ;;;
  composedArg <- read COMPOSED_SCHEMA ;;
  planner <- call (CallNewQueryPlanner composedArg)
                  (newQueryPlanner composedArg) ;;
  assign (set_PLANNER planner).

(** [plan2(operationString, operationName)], the session form *)
Definition plan2 (operationString : string) (operationName : option string)
    : M ExecutionResult :=
  try_catch
    (operationDocument <- call (CallParse operationString)
                               (parse operationString) ;;
     schema <- read SCHEMA ;;
     validationErrors <- call (CallValidate schema operationDocument)
                              (validate schema operationDocument) ;;
     if nonempty validationErrors then ret (with_errors validationErrors)
     else
       composed <- read COMPOSED_SCHEMA ;;
       operation <-
         call (CallOperationFromDocument composed operationDocument
                 operationName)
              (operationFromDocument composed operationDocument
                 operationName) ;;
       planner <- read PLANNER ;;
       queryPlan <- member planner "buildQueryPlan"
                      (fun p => call (CallBuildQueryPlan p operation)
                                     (buildQueryPlan p operation)) ;;
       ret (with_data queryPlan))
    (fun e => ret (with_errors [e])).

(** ** The invocation scripts *)

(** [{ Ok: v }] and [{ Err: l }] *)
Definition envelope_Ok (v : Payload) : OperationResult :=
  {| Ok := Some v; Err_ := None |}.
Definition envelope_Err (l : list Err) : OperationResult :=
  {| Ok := None; Err_ := Some l |}.

(** reading [planResult.data] *)
Definition data_value (r : ExecutionResult) : Payload :=
  match data r with Some p => JsPlan p | None => JsUndefined end.

(** [planResult.errors?.length > 0]: [undefined > 0] is false *)
Definition errors_nonempty (r : ExecutionResult) : bool :=
  match errors r with Some l => nonempty l | None => false end.

(** [{ Err: planResult.errors }] *)
Definition envelope_of_errors (r : ExecutionResult) : OperationResult :=
  {| Ok := None; Err_ := errors r |}.

(** planner_create.ts, with the host's binding [schemaString] *)
Definition planner_create (schemaString : string) : M unit :=
  try_catch
    (create schemaString ;;;
     done (envelope_Ok JsNull))
    (fun e => done (envelope_Err [e])).

(** planner_plan.ts, with the host's bindings [queryString] and
    [operationName] *)
Definition planner_plan (queryString : string) (operationName : option string)
    : M unit :=
  try_catch
    (planResult <- plan2 queryString operationName ;;
     if errors_nonempty planResult
     then done (envelope_of_errors planResult)
     else done (envelope_Ok (data_value planResult)))
    (fun e => done (envelope_Err [e])).

End Bridge.

Arguments Err L : clear implicits.
Arguments ExecutionResult L : clear implicits.
Arguments OperationResult L : clear implicits.
Arguments Payload L : clear implicits.
Arguments Session L : clear implicits.
Arguments Event L : clear implicits.
Arguments World L : clear implicits.

(** The world of a freshly loaded module: nothing assigned, nothing called,
    nothing delivered. *)
Definition initial_world {L : Library} : World L :=
  {| session := uninitialized; calls := []; delivered := [] |}.

(** ** The four steps of planning, as seen in the call log *)

Inductive Step : Type := StepParse | StepValidate | StepResolve | StepPlan.

Definition step_of {L : Library} (ev : Event L) : option Step :=
  match ev with
  | CallParse _ => Some StepParse
  | CallValidate _ _ => Some StepValidate
  | CallOperationFromDocument _ _ _ => Some StepResolve
  | CallBuildQueryPlan _ _ => Some StepPlan
  | _ => None
  end.

Fixpoint steps {L : Library} (l : list (Event L)) : list Step :=
  match l with
  | [] => []
  | ev :: l' =>
      match step_of ev with
      | Some s => s :: steps l'
      | None => steps l'
      end
  end.

(** [l] is an initial segment of parse, validate, resolve, plan. *)
Definition in_plan_order (l : list Step) : Prop :=
  exists rest, l ++ rest = [StepParse; StepValidate; StepResolve; StepPlan].

(** ** Well-formed envelopes *)

Definition populated_Ok {L : Library} (r : OperationResult L) : bool :=
  match Ok r with
  | Some JsUndefined | None => false
  | Some _ => true
  end.

Definition populated_Err {L : Library} (r : OperationResult L) : bool :=
  match Err_ r with
  | Some _ => true
  | None => false
  end.

Definition well_formed {L : Library} (r : OperationResult L) : bool :=
  xorb (populated_Ok r) (populated_Err r)
  && match Err_ r with
     | Some [] => false
     | _ => true
     end.

(** ** Two properties one may ask of the session *)

(** [create] is all-or-nothing on [w]: when it completes normally the three
    bindings hold what was built from [S], and when it throws the session is
    as it was. *)
Definition create_all_or_nothing {L : Library} (S : string) (w : World L)
    : Prop :=
  match fst (create S w) with
  | Normal _ =>
      exists c a g p,
        buildSchema S = Normal c /\ toAPISchema c = Normal a
        /\ toGraphQLJSSchema a = Normal g
        /\ newQueryPlanner (Some c) = Normal p
        /\ session (snd (create S w)) =
             {| SCHEMA := Some g; COMPOSED_SCHEMA := Some c;
                PLANNER := Some p |}
  | Abrupt _ => session (snd (create S w)) = session w
  end.

(** [create(S); plan2(q, n)], as one sequence of statements, ends as the
    one-shot [plan(S, q, n)] does. *)
Definition forms_agree {L : Library} (S q : string) (n : option string)
    (w : World L) : Prop :=
  fst (bind (create S) (fun _ => plan2 q n) w) = fst (plan S q n w).

(** The same with [create] run by its invocation script, so that [plan2]
    runs whether or not [create] threw. *)
Definition forms_agree_across_invocations {L : Library} (S q : string)
    (n : option string) (w : World L) : Prop :=
  fst (plan2 q n (snd (planner_create S w))) = fst (plan S q n w).

(** ** Compile calls and planning calls *)

(** [ev] is one of the four planning steps; the other calls compile a
    schema or construct a planner. *)
Definition is_planning_step {L : Library} (ev : Event L) : bool :=
  match step_of ev with
  | Some _ => true
  | None => false
  end.

(** ** The scripts over any completion callback

    [done] is a binding the host provides; the scripts call it inside their
    [try] block.  Here the scripts are taken over an arbitrary callback, which
    may itself throw. *)
Section HostCallback.

Context {L : Library}.
Variable host_done : OperationResult L -> M unit.

(** planner_create.ts *)
Definition planner_create_with (schemaString : string) : M unit :=
  try_catch
    (bind (create schemaString) (fun _ => host_done (envelope_Ok JsNull)))
    (fun e => host_done (envelope_Err [e])).

(** planner_plan.ts *)
Definition planner_plan_with (queryString : string)
    (operationName : option string) : M unit :=
  try_catch
    (bind (plan2 queryString operationName)
       (fun planResult =>
          if errors_nonempty planResult
          then host_done (envelope_of_errors planResult)
          else host_done (envelope_Ok (data_value planResult))))
    (fun e => host_done (envelope_Err [e])).

End HostCallback.

(** A callback that takes the envelope and then throws [e0]. *)
Definition rejecting_done {L : Library} (e0 : Err L) (r : OperationResult L)
    : M unit :=
  fun w =>
    (Abrupt e0, {| session := session w; calls := calls w;
                   delivered := delivered w ++ [r] |}).

(** ** A small library instance for concrete runs

    Schemas, documents, planners and plans are strings.  ["malformed"] does
    not compile as a schema; ["inaccessible"] compiles but has no API view;
    ["not a supergraph"] compiles and has an API view but no planner can be
    built for it.  The document ["{"] does not parse, ["{ unknown other }"]
    has two validation errors, and ["query A { a } query B { b }"] needs an
    operation name.  Validation against [undefined] throws. *)
Module Sample.

Definition error (msg : string) : ErrorValue string := LibraryError msg.

Definition buildSchema (s : string) : Completion (ErrorValue string) string :=
  if String.eqb s "malformed" then Abrupt (error "Syntax Error in schema")
  else Normal s.

Definition toAPISchema (c : string) : Completion (ErrorValue string) string :=
  if String.eqb c "inaccessible"
  then Abrupt (error "No queryable type is accessible")
  else Normal ("api " ++ c)%string.

Definition toGraphQLJSSchema (a : string)
    : Completion (ErrorValue string) string :=
  Normal ("graphql-js " ++ a)%string.

Definition parse (q : string) : Completion (ErrorValue string) string :=
  if String.eqb q "{" then Abrupt (error "Syntax Error: Expected Name")
  else Normal q.

Definition validate (g : option string) (d : string)
    : Completion (ErrorValue string) (list (ErrorValue string)) :=
  match g with
  | None => Abrupt (error "Expected undefined to be a GraphQL schema.")
  | Some _ =>
      if String.eqb d "{ unknown other }"
      then Normal [error "Cannot query field unknown";
                   error "Cannot query field other"]
      else Normal []
  end.

Definition operationFromDocument (c : option string) (d : string)
    (n : option string) : Completion (ErrorValue string) string :=
  if String.eqb d "query A { a } query B { b }" then
    match n with
    | None => Abrupt (error "Must provide operation name")
    | Some name => Normal ("operation " ++ name)%string
    end
  else Normal ("operation of " ++ d)%string.

Definition newQueryPlanner (c : option string)
    : Completion (ErrorValue string) string :=
  match c with
  | None => Abrupt (error "No schema")
  | Some s =>
      if String.eqb s "not a supergraph"
      then Abrupt (error "Not a supergraph schema")
      else Normal ("planner for " ++ s)%string
  end.

Definition buildQueryPlan (p o : string)
    : Completion (ErrorValue string) string :=
  Normal ("plan of " ++ o ++ " by " ++ p)%string.

(** all seven types are [string] *)
Definition library : Library :=
  @Build_Library string string string string string string string
    buildSchema toAPISchema toGraphQLJSSchema parse validate
    operationFromDocument newQueryPlanner buildQueryPlan.

(** a session as a successful [create("supergraph")] leaves it *)
Definition ready : World library :=
  @Build_World library
    (@Build_Session library (Some "graphql-js api supergraph")
       (Some "supergraph") (Some "planner for supergraph"))
    [] [].

End Sample.

(** * Properties *)

(** Unfold the monad and the functions down to the library calls. *)
Ltac unfold_bridge :=
  unfold planner_plan, planner_create, plan2, plan, create, try_catch, bind,
    call, member, read, assign, done, ret, throw in *.

(** Split on the completion of the next library call (or test). *)
Ltac next_call :=
  match goal with
  | |- context [match ?c with Normal _ => _ | Abrupt _ => _ end] =>
      destruct c eqn:?
  | |- context [if nonempty ?l then _ else _] => destruct l eqn:?
  | |- context [match ?o with Some _ => _ | None => _ end] =>
      destruct o eqn:?
  end;
  cbn [fst snd session calls delivered nonempty SCHEMA COMPOSED_SCHEMA
       PLANNER set_SCHEMA set_COMPOSED_SCHEMA set_PLANNER].

Ltac run_all := unfold_bridge; cbn; repeat next_call.

Section Properties.

Context {L : Library}.

(** ** Frame lemmas *)

Lemma plan2_preserves_session (q : string) (n : option string) (w : World L) :
  session (snd (plan2 q n w)) = session w.
Proof. run_all; reflexivity. Qed.

Lemma plan2_preserves_delivered (q : string) (n : option string)
    (w : World L) :
  delivered (snd (plan2 q n w)) = delivered w.
Proof. run_all; reflexivity. Qed.

(** [plan2] never completes abruptly: its [try] covers the whole body. *)
Lemma plan2_returns (q : string) (n : option string) (w : World L) :
  exists r, fst (plan2 q n w) = Normal r.
Proof. run_all; eexists; reflexivity. Qed.

(** The result of [plan2] is a function of the session bindings alone. *)
Lemma plan2_result_depends_on_session (q : string) (n : option string)
    (w1 w2 : World L) :
  session w1 = session w2 -> fst (plan2 q n w1) = fst (plan2 q n w2).
Proof.
  intros Hs. unfold_bridge. cbn. rewrite Hs.
  repeat next_call; reflexivity.
Qed.

(** What [plan2] returns has either a non-empty [errors] array and no
    [data], or [data] and no [errors]. *)
Lemma plan2_result_shape (q : string) (n : option string) (w : World L) :
  (exists e l, fst (plan2 q n w) = Normal (with_errors (e :: l)))
  \/ (exists p, fst (plan2 q n w) = Normal (with_data p)).
Proof.
  run_all;
    solve [ left; do 2 eexists; reflexivity | right; eexists; reflexivity ].
Qed.

(** ** [create], step by step *)

(** Rewrite with the known completions of library calls. *)
Ltac known_calls :=
  repeat match goal with
         | H : ?c = Normal _ |- context [?c] => rewrite H; cbn
         | H : ?c = Abrupt _ |- context [?c] => rewrite H; cbn
         end.

Ltac run_known := intros; unfold_bridge; cbn; known_calls.

Lemma create_all_succeed (S : string) (w : World L) c a g p :
  buildSchema S = Normal c -> toAPISchema c = Normal a ->
  toGraphQLJSSchema a = Normal g -> newQueryPlanner (Some c) = Normal p ->
  create S w =
    (Normal tt,
     {| session := {| SCHEMA := Some g; COMPOSED_SCHEMA := Some c;
                      PLANNER := Some p |};
        calls := calls w ++ [CallBuildSchema S; CallToAPISchema c;
                             CallToGraphQLJSSchema a;
                             CallNewQueryPlanner (Some c)];
        delivered := delivered w |}).
Proof. run_known. rewrite <- !app_assoc. reflexivity. Qed.

Lemma create_buildSchema_throws (S : string) (w : World L) e :
  buildSchema S = Abrupt e ->
  create S w =
    (Abrupt e,
     {| session := session w; calls := calls w ++ [CallBuildSchema S];
        delivered := delivered w |}).
Proof. run_known. reflexivity. Qed.

Lemma create_toAPISchema_throws (S : string) (w : World L) c e :
  buildSchema S = Normal c -> toAPISchema c = Abrupt e ->
  create S w =
    (Abrupt e,
     {| session := set_COMPOSED_SCHEMA c (session w);
        calls := calls w ++ [CallBuildSchema S; CallToAPISchema c];
        delivered := delivered w |}).
Proof. run_known. rewrite <- !app_assoc. reflexivity. Qed.

Lemma create_toGraphQLJSSchema_throws (S : string) (w : World L) c a e :
  buildSchema S = Normal c -> toAPISchema c = Normal a ->
  toGraphQLJSSchema a = Abrupt e ->
  create S w =
    (Abrupt e,
     {| session := set_COMPOSED_SCHEMA c (session w);
        calls := calls w ++ [CallBuildSchema S; CallToAPISchema c;
                             CallToGraphQLJSSchema a];
        delivered := delivered w |}).
Proof. run_known. rewrite <- !app_assoc. reflexivity. Qed.

Lemma create_newQueryPlanner_throws (S : string) (w : World L) c a g e :
  buildSchema S = Normal c -> toAPISchema c = Normal a ->
  toGraphQLJSSchema a = Normal g -> newQueryPlanner (Some c) = Abrupt e ->
  create S w =
    (Abrupt e,
     {| session := set_SCHEMA g (set_COMPOSED_SCHEMA c (session w));
        calls := calls w ++ [CallBuildSchema S; CallToAPISchema c;
                             CallToGraphQLJSSchema a;
                             CallNewQueryPlanner (Some c)];
        delivered := delivered w |}).
Proof. run_known. rewrite <- !app_assoc. reflexivity. Qed.

(** The script around [create] turns its completion into one envelope. *)
Lemma planner_create_after_create (S : string) (w : World L) :
  planner_create S w =
    let w' := snd (create S w) in
    (Normal tt,
     {| session := session w'; calls := calls w';
        delivered :=
          delivered w' ++
          [match fst (create S w) with
           | Normal _ => envelope_Ok JsNull
           | Abrupt e => envelope_Err [e]
           end] |}).
Proof.
  unfold planner_create, try_catch, bind, done.
  destruct (create S w) as [[[]|e] w']; reflexivity.
Qed.

Lemma create_preserves_delivered (S : string) (w : World L) :
  delivered (snd (create S w)) = delivered w.
Proof. run_all; reflexivity. Qed.

(** ** The Plan operation *)

(** Close a goal about the calls a run appended to the log. *)
Ltac appended_calls :=
  rewrite <- ?app_assoc; eexists; split;
  [ reflexivity | cbn; eexists; reflexivity ].

(** C1.  When validation of the parsed document reports one or more errors,
    both forms of Plan return exactly that list as [errors] (the session form
    delivers it as the [Err] envelope) and the call log ends with the call of
    [validate]: neither [operationFromDocument] nor the planner is called.
    In every run of either form the planning steps that are called come in
    the order parse, validate, resolve, plan. *)
Theorem validation_errors_stop_planning (q : string) (n : option string) :
  (forall w : World L,
      exists new, calls (snd (plan2 q n w)) = calls w ++ new
                  /\ in_plan_order (steps new))
  /\ (forall (S : string) (w : World L),
         exists new, calls (snd (plan S q n w)) = calls w ++ new
                     /\ in_plan_order (steps new))
  /\ (forall (w : World L) d errs,
         parse q = Normal d ->
         validate (SCHEMA (session w)) d = Normal errs ->
         errs <> [] ->
         fst (plan2 q n w) = Normal (with_errors errs)
         /\ calls (snd (plan2 q n w)) =
              calls w ++ [CallParse q; CallValidate (SCHEMA (session w)) d]
         /\ delivered (snd (planner_plan q n w)) =
              delivered w ++ [envelope_Err errs])
  /\ (forall (S : string) (w : World L) c a d g errs,
         buildSchema S = Normal c -> toAPISchema c = Normal a ->
         parse q = Normal d -> toGraphQLJSSchema a = Normal g ->
         validate (Some g) d = Normal errs ->
         errs <> [] ->
         fst (plan S q n w) = Normal (with_errors errs)
         /\ calls (snd (plan S q n w)) =
              calls w ++ [CallBuildSchema S; CallToAPISchema c; CallParse q;
                          CallToGraphQLJSSchema a; CallValidate (Some g) d]).
Proof.
  split; [| split; [| split]].
  - intros w. run_all; appended_calls.
  - intros S w. run_all; appended_calls.
  - intros w d errs Hp Hv Hne.
    destruct errs as [|e l]; [contradiction Hne; reflexivity|].
    unfold_bridge. cbn. rewrite Hp. cbn. rewrite Hv. cbn.
    rewrite <- !app_assoc. repeat split.
  - intros S w c a d g errs Hb Ha Hp Hg Hv Hne.
    destruct errs as [|e l]; [contradiction Hne; reflexivity|].
    unfold_bridge. cbn. rewrite Hb. cbn. rewrite Ha. cbn. rewrite Hp. cbn.
    rewrite Hg. cbn. rewrite Hv. cbn.
    rewrite <- !app_assoc. repeat split.
Qed.

(** C7.  The session form of Plan leaves the three session bindings as they
    were, whether it returns a plan or errors; so does the script around
    it. *)
Theorem plan2_leaves_session_unchanged (q : string) (n : option string)
    (w : World L) :
  session (snd (plan2 q n w)) = session w
  /\ session (snd (planner_plan q n w)) = session w.
Proof.
  split.
  - apply plan2_preserves_session.
  - run_all; reflexivity.
Qed.

(** C8.  Two calls of the session form of Plan with the same query string and
    operation name, made against the same session bindings, return the same
    result; in particular a call repeated right after the first one returns
    what the first returned. *)
Theorem plan2_repeatable (q : string) (n : option string) :
  (forall w1 w2 : World L,
      session w1 = session w2 ->
      fst (plan2 q n w1) = fst (plan2 q n w2))
  /\ (forall w : World L,
         fst (plan2 q n (snd (plan2 q n w))) = fst (plan2 q n w)).
Proof.
  split.
  - intros w1 w2. apply plan2_result_depends_on_session.
  - intros w. apply plan2_result_depends_on_session.
    apply plan2_preserves_session.
Qed.

(** C9.  The one-shot form of Plan leaves the three session bindings as they
    were: it assigns none of them. *)
Theorem plan_leaves_session_unchanged (S q : string) (n : option string)
    (w : World L) :
  session (snd (plan S q n w)) = session w.
Proof. run_all; reflexivity. Qed.

(** ** The invocation scripts *)

(** C2.  Each invocation script completes normally (nothing thrown inside
    the operation leaves the script) and hands exactly one envelope to
    [done], of the form [{Ok: ...}] or [{Err: ...}]. *)
Theorem invocation_delivers_exactly_one_envelope :
  (forall (S : string) (w : World L),
      exists r,
        fst (planner_create S w) = Normal tt
        /\ delivered (snd (planner_create S w)) = delivered w ++ [r]
        /\ ((exists v, r = envelope_Ok v) \/ (exists l, r = envelope_Err l)))
  /\ (forall (q : string) (n : option string) (w : World L),
         exists r,
           fst (planner_plan q n w) = Normal tt
           /\ delivered (snd (planner_plan q n w)) = delivered w ++ [r]
           /\ ((exists v, r = envelope_Ok v)
               \/ (exists l, r = envelope_Err l))).
Proof.
  split.
  - intros S w.
    run_all; eexists; (split; [reflexivity | split; [reflexivity |]]);
      solve [ left; eexists; reflexivity | right; eexists; reflexivity ].
  - intros q n w.
    run_all; eexists; (split; [reflexivity | split; [reflexivity |]]);
      solve [ left; eexists; reflexivity | right; eexists; reflexivity ].
Qed.

(** C6.  The envelope an invocation delivers has exactly one of [Ok] and
    [Err] populated, and a populated [Err] is a non-empty list. *)
Theorem delivered_envelopes_well_formed :
  (forall (S : string) (w : World L),
      exists r,
        delivered (snd (planner_create S w)) = delivered w ++ [r]
        /\ well_formed r = true)
  /\ (forall (q : string) (n : option string) (w : World L),
         exists r,
           delivered (snd (planner_plan q n w)) = delivered w ++ [r]
           /\ well_formed r = true).
Proof.
  split.
  - intros S w. run_all; eexists; split; reflexivity.
  - intros q n w. run_all; eexists; split; reflexivity.
Qed.

(** C5.  The Create invocation delivers [{Ok: null}] when compilation,
    derivation of the API schema and construction of the planner all succeed,
    and [{Err: [e]}], with [e] the value thrown, when one of them throws. *)
Theorem create_invocation_outcome (S : string) (w : World L) :
  (forall c a g p,
      buildSchema S = Normal c -> toAPISchema c = Normal a ->
      toGraphQLJSSchema a = Normal g -> newQueryPlanner (Some c) = Normal p ->
      delivered (snd (planner_create S w)) =
        delivered w ++ [envelope_Ok JsNull])
  /\ (forall e,
         buildSchema S = Abrupt e ->
         delivered (snd (planner_create S w)) =
           delivered w ++ [envelope_Err [e]])
  /\ (forall c e,
         buildSchema S = Normal c -> toAPISchema c = Abrupt e ->
         delivered (snd (planner_create S w)) =
           delivered w ++ [envelope_Err [e]])
  /\ (forall c a e,
         buildSchema S = Normal c -> toAPISchema c = Normal a ->
         toGraphQLJSSchema a = Abrupt e ->
         delivered (snd (planner_create S w)) =
           delivered w ++ [envelope_Err [e]])
  /\ (forall c a g e,
         buildSchema S = Normal c -> toAPISchema c = Normal a ->
         toGraphQLJSSchema a = Normal g ->
         newQueryPlanner (Some c) = Abrupt e ->
         delivered (snd (planner_create S w)) =
           delivered w ++ [envelope_Err [e]]).
Proof.
  rewrite planner_create_after_create. cbn [snd delivered].
  repeat split; intros.
  - erewrite create_all_succeed by eassumption. reflexivity.
  - erewrite create_buildSchema_throws by eassumption. reflexivity.
  - erewrite create_toAPISchema_throws by eassumption. reflexivity.
  - erewrite create_toGraphQLJSSchema_throws by eassumption. reflexivity.
  - erewrite create_newQueryPlanner_throws by eassumption. reflexivity.
Qed.

(** ** The session and [create] *)

(** C4, amended.  A [create] in which every step succeeds replaces all three
    session bindings.  A [create] whose schema compilation throws leaves all
    three as they were.  A [create] that throws at a later step keeps the
    bindings it has assigned by then: the new [COMPOSED_SCHEMA] when the API
    schema or its graphql-js form cannot be derived, the new
    [COMPOSED_SCHEMA] and [SCHEMA] when the planner cannot be constructed;
    the other bindings are as before the call. *)
Theorem create_session_effect (S : string) (w : World L) :
  (forall c a g p,
      buildSchema S = Normal c -> toAPISchema c = Normal a ->
      toGraphQLJSSchema a = Normal g -> newQueryPlanner (Some c) = Normal p ->
      fst (create S w) = Normal tt
      /\ session (snd (create S w)) =
           {| SCHEMA := Some g; COMPOSED_SCHEMA := Some c;
              PLANNER := Some p |})
  /\ (forall e,
         buildSchema S = Abrupt e ->
         fst (create S w) = Abrupt e
         /\ session (snd (create S w)) = session w)
  /\ (forall c e,
         buildSchema S = Normal c -> toAPISchema c = Abrupt e ->
         fst (create S w) = Abrupt e
         /\ session (snd (create S w)) =
              {| SCHEMA := SCHEMA (session w); COMPOSED_SCHEMA := Some c;
                 PLANNER := PLANNER (session w) |})
  /\ (forall c a e,
         buildSchema S = Normal c -> toAPISchema c = Normal a ->
         toGraphQLJSSchema a = Abrupt e ->
         fst (create S w) = Abrupt e
         /\ session (snd (create S w)) =
              {| SCHEMA := SCHEMA (session w); COMPOSED_SCHEMA := Some c;
                 PLANNER := PLANNER (session w) |})
  /\ (forall c a g e,
         buildSchema S = Normal c -> toAPISchema c = Normal a ->
         toGraphQLJSSchema a = Normal g ->
         newQueryPlanner (Some c) = Abrupt e ->
         fst (create S w) = Abrupt e
         /\ session (snd (create S w)) =
              {| SCHEMA := Some g; COMPOSED_SCHEMA := Some c;
                 PLANNER := PLANNER (session w) |}).
Proof.
  split; [| split; [| split; [| split]]]; intros.
  - erewrite create_all_succeed by eassumption. split; reflexivity.
  - erewrite create_buildSchema_throws by eassumption. split; reflexivity.
  - erewrite create_toAPISchema_throws by eassumption. split; reflexivity.
  - erewrite create_toGraphQLJSSchema_throws by eassumption.
    split; reflexivity.
  - erewrite create_newQueryPlanner_throws by eassumption.
    split; reflexivity.
Qed.

(** ** Session form against one-shot form *)

(** A [create] that completes normally went through all four steps. *)
Lemma create_succeeds_inv (S : string) (w : World L) :
  fst (create S w) = Normal tt ->
  exists c a g p,
    buildSchema S = Normal c /\ toAPISchema c = Normal a
    /\ toGraphQLJSSchema a = Normal g /\ newQueryPlanner (Some c) = Normal p.
Proof.
  intros H.
  destruct (buildSchema S) as [c|e] eqn:Hb in H |- .
  2: { rewrite (create_buildSchema_throws S w Hb) in H. discriminate H. }
  destruct (toAPISchema c) as [a|e] eqn:Ha.
  2: { rewrite (create_toAPISchema_throws S w Hb Ha) in H. discriminate H. }
  destruct (toGraphQLJSSchema a) as [g|e] eqn:Hg.
  2: { rewrite (create_toGraphQLJSSchema_throws S w Hb Ha Hg) in H.
       discriminate H. }
  destruct (newQueryPlanner (Some c)) as [p|e] eqn:Hp.
  2: { rewrite (create_newQueryPlanner_throws S w Hb Ha Hg Hp) in H.
       discriminate H. }
  exists c, a, g, p. repeat split; assumption.
Qed.

(** On a session built from [S], [plan2] returns what [plan] returns
    for [S]. *)
Lemma plan2_on_built_session (S q : string) (n : option string)
    (w w0 : World L) c a g p :
  buildSchema S = Normal c -> toAPISchema c = Normal a ->
  toGraphQLJSSchema a = Normal g -> newQueryPlanner (Some c) = Normal p ->
  session w = {| SCHEMA := Some g; COMPOSED_SCHEMA := Some c;
                 PLANNER := Some p |} ->
  fst (plan2 q n w) = fst (plan S q n w0).
Proof.
  intros Hb Ha Hg Hp Hs. unfold_bridge. cbn. rewrite Hs, Hb. cbn.
  rewrite Ha. cbn.
  destruct (parse q) as [d|e]; cbn; [| reflexivity].
  rewrite Hg. cbn.
  destruct (validate (Some g) d) as [[|e l]|e]; cbn; try reflexivity.
  destruct (operationFromDocument (Some c) d n) as [o|e]; cbn;
    [| reflexivity].
  rewrite Hp. cbn.
  destruct (buildQueryPlan p o); reflexivity.
Qed.

(** C3, amended.  For a schema string on which [create] succeeds, [create]
    followed by [plan2] returns what the one-shot [plan] returns for the same
    schema string, query string and operation name: the same plan as [data]
    or the same list as [errors].  Neither result depends on what the session
    held before. *)
Theorem session_form_agrees_after_successful_create
    (S q : string) (n : option string) (w w0 : World L) :
  fst (create S w) = Normal tt ->
  fst (bind (create S) (fun _ => plan2 q n) w) = fst (plan S q n w0)
  /\ fst (plan2 q n (snd (planner_create S w))) = fst (plan S q n w0).
Proof.
  intros Hc.
  destruct (create_succeeds_inv _ _ Hc) as (c & a & g & p & Hb & Ha & Hg & Hp).
  split.
  - unfold bind. rewrite (create_all_succeed S w Hb Ha Hg Hp).
    apply (plan2_on_built_session S q n _ w0 Hb Ha Hg Hp). reflexivity.
  - apply (plan2_on_built_session S q n _ w0 Hb Ha Hg Hp).
    rewrite planner_create_after_create. cbn [snd session].
    rewrite (create_all_succeed S w Hb Ha Hg Hp). reflexivity.
Qed.

(** ** Plan before Create *)

(** C10.  On a module whose session bindings were never assigned, the Plan
    invocation completes normally and delivers exactly one envelope, an
    [Err] with a non-empty list: there is no plan to return, since reading
    [buildQueryPlan] off the [undefined] planner throws.  Unless [validate]
    itself answers with a batch of validation errors for the [undefined]
    schema, the list holds the one value that was thrown and caught. *)
Theorem plan_before_create_delivers_error
    (q : string) (n : option string) (w : World L) :
  session w = uninitialized ->
  exists e l,
    fst (plan2 q n w) = Normal (with_errors (e :: l))
    /\ fst (planner_plan q n w) = Normal tt
    /\ delivered (snd (planner_plan q n w)) =
         delivered w ++ [envelope_Err (e :: l)]
    /\ ((forall d errs,
            parse q = Normal d -> validate None d = Normal errs ->
            errs = []) ->
        l = []).
Proof.
  intros Hs. unfold uninitialized in Hs.
  unfold_bridge. cbn. rewrite Hs. cbn.
  repeat next_call;
    do 2 eexists; (repeat split; try reflexivity);
    try (intros H;
         match goal with
         | Hv : validate None ?d = Normal (_ :: _) |- _ =>
             specialize (H _ _ eq_refl Hv); discriminate H
         end).
Qed.

End Properties.

(** * The stages of Plan and Create *)

(** Rewrite with what is known of the library calls and of the session. *)
Ltac with_known :=
  repeat match goal with
         | H : ?c = _ |- context [?c] => rewrite H; cbn
         end.

Ltac run_with_known :=
  intros; unfold_bridge; cbn; with_known; rewrite <- ?app_assoc.

Section Stages.

Context {L : Library}.

(** ** The session form, stage by stage *)

(** X1.  When the query parses, validation reports nothing, the operation is
    resolved and the planner of the session builds a plan, [plan2] returns
    that plan as [data], has made exactly these four calls in this order, with
    validation against [SCHEMA] and resolution against [COMPOSED_SCHEMA], and
    the script delivers [{Ok: plan}]. *)
Theorem plan2_success (q : string) (n : option string) (w : World L)
    d o pl p :
  parse q = Normal d ->
  validate (SCHEMA (session w)) d = Normal [] ->
  operationFromDocument (COMPOSED_SCHEMA (session w)) d n = Normal o ->
  PLANNER (session w) = Some pl ->
  buildQueryPlan pl o = Normal p ->
  fst (plan2 q n w) = Normal (with_data p)
  /\ calls (snd (plan2 q n w)) =
       calls w ++ [CallParse q; CallValidate (SCHEMA (session w)) d;
                   CallOperationFromDocument (COMPOSED_SCHEMA (session w))
                     d n;
                   CallBuildQueryPlan pl o]
  /\ delivered (snd (planner_plan q n w)) =
       delivered w ++ [envelope_Ok (JsPlan p)].
Proof. run_with_known. repeat split. Qed.

(** X2.  The first stage of [plan2] that throws ends the run: the thrown value
    comes back alone in [errors], and no later stage is called.  A parse
    failure is reported before [validate] is called, a resolution failure
    before the planner is, and an unassigned [PLANNER] gives a [TypeError]
    after the operation was resolved. *)
Theorem plan2_reports_first_failure (q : string) (n : option string)
    (w : World L) :
  (forall e,
      parse q = Abrupt e ->
      fst (plan2 q n w) = Normal (with_errors [e])
      /\ calls (snd (plan2 q n w)) = calls w ++ [CallParse q])
  /\ (forall d e,
         parse q = Normal d ->
         validate (SCHEMA (session w)) d = Abrupt e ->
         fst (plan2 q n w) = Normal (with_errors [e])
         /\ calls (snd (plan2 q n w)) =
              calls w ++ [CallParse q; CallValidate (SCHEMA (session w)) d])
  /\ (forall d e,
         parse q = Normal d ->
         validate (SCHEMA (session w)) d = Normal [] ->
         operationFromDocument (COMPOSED_SCHEMA (session w)) d n = Abrupt e ->
         fst (plan2 q n w) = Normal (with_errors [e])
         /\ calls (snd (plan2 q n w)) =
              calls w ++ [CallParse q; CallValidate (SCHEMA (session w)) d;
                          CallOperationFromDocument
                            (COMPOSED_SCHEMA (session w)) d n])
  /\ (forall d o,
         parse q = Normal d ->
         validate (SCHEMA (session w)) d = Normal [] ->
         operationFromDocument (COMPOSED_SCHEMA (session w)) d n = Normal o ->
         PLANNER (session w) = None ->
         fst (plan2 q n w) =
           Normal (with_errors
                     [TypeError "Cannot read properties of undefined (reading 'buildQueryPlan')"])
         /\ calls (snd (plan2 q n w)) =
              calls w ++ [CallParse q; CallValidate (SCHEMA (session w)) d;
                          CallOperationFromDocument
                            (COMPOSED_SCHEMA (session w)) d n])
  /\ (forall d o pl e,
         parse q = Normal d ->
         validate (SCHEMA (session w)) d = Normal [] ->
         operationFromDocument (COMPOSED_SCHEMA (session w)) d n = Normal o ->
         PLANNER (session w) = Some pl ->
         buildQueryPlan pl o = Abrupt e ->
         fst (plan2 q n w) = Normal (with_errors [e])
         /\ calls (snd (plan2 q n w)) =
              calls w ++ [CallParse q; CallValidate (SCHEMA (session w)) d;
                          CallOperationFromDocument
                            (COMPOSED_SCHEMA (session w)) d n;
                          CallBuildQueryPlan pl o]).
Proof.
  split; [| split; [| split; [| split]]];
    run_with_known; split; reflexivity.
Qed.

(** X3.  An [Ok] envelope from the Plan invocation means that every stage
    succeeded on the bindings of the session, and it carries the plan the
    planner built: never [null], never [undefined]. *)
Theorem planner_plan_Ok_inversion (q : string) (n : option string)
    (w : World L) v :
  delivered (snd (planner_plan q n w)) = delivered w ++ [envelope_Ok v] ->
  exists d o pl p,
    parse q = Normal d
    /\ validate (SCHEMA (session w)) d = Normal []
    /\ operationFromDocument (COMPOSED_SCHEMA (session w)) d n = Normal o
    /\ PLANNER (session w) = Some pl
    /\ buildQueryPlan pl o = Normal p
    /\ v = JsPlan p.
Proof.
  unfold_bridge. cbn.
  repeat next_call; intros H; apply app_inv_head in H;
    try discriminate H.
  injection H as <-. do 4 eexists. repeat split; eassumption.
Qed.

(** X4.  [plan2] makes planning calls only: it never compiles a schema and never
    constructs a planner.  [create] makes no planning call: it never parses
    or validates a query. *)
Theorem compile_and_plan_calls_are_separate :
  (forall (q : string) (n : option string) (w : World L),
      exists new,
        calls (snd (plan2 q n w)) = calls w ++ new
        /\ forallb is_planning_step new = true)
  /\ (forall (S : string) (w : World L),
         exists new,
           calls (snd (create S w)) = calls w ++ new /\ steps new = []).
Proof.
  split.
  - intros q n w.
    run_all; rewrite <- ?app_assoc; eexists; split; reflexivity.
  - intros S w.
    run_all; rewrite <- ?app_assoc; eexists; split; reflexivity.
Qed.

(** ** The one-shot form, stage by stage *)

(** X5.  When every stage succeeds, [plan] returns the plan as [data] after
    exactly eight calls: the schema is compiled and its API view derived
    before the query is parsed, the graphql-js schema is derived after it,
    and the planner is constructed, from the composed schema, only once the
    operation is validated and resolved. *)
Theorem plan_success (S q : string) (n : option string) (w : World L)
    c a d g o pl p :
  buildSchema S = Normal c -> toAPISchema c = Normal a ->
  parse q = Normal d -> toGraphQLJSSchema a = Normal g ->
  validate (Some g) d = Normal [] ->
  operationFromDocument (Some c) d n = Normal o ->
  newQueryPlanner (Some c) = Normal pl ->
  buildQueryPlan pl o = Normal p ->
  fst (plan S q n w) = Normal (with_data p)
  /\ calls (snd (plan S q n w)) =
       calls w ++ [CallBuildSchema S; CallToAPISchema c; CallParse q;
                   CallToGraphQLJSSchema a; CallValidate (Some g) d;
                   CallOperationFromDocument (Some c) d n;
                   CallNewQueryPlanner (Some c); CallBuildQueryPlan pl o].
Proof. run_with_known. split; reflexivity. Qed.

(** X6.  The first stage of [plan] that throws ends the run with the thrown value
    alone in [errors].  A schema that does not compile is reported without
    the query being parsed; a query that does not parse is reported before
    the graphql-js schema is derived; no planner is constructed for an
    operation that cannot be resolved. *)
Theorem plan_reports_first_failure (S q : string) (n : option string)
    (w : World L) :
  (forall e,
      buildSchema S = Abrupt e ->
      fst (plan S q n w) = Normal (with_errors [e])
      /\ calls (snd (plan S q n w)) = calls w ++ [CallBuildSchema S])
  /\ (forall c e,
         buildSchema S = Normal c -> toAPISchema c = Abrupt e ->
         fst (plan S q n w) = Normal (with_errors [e])
         /\ calls (snd (plan S q n w)) =
              calls w ++ [CallBuildSchema S; CallToAPISchema c])
  /\ (forall c a e,
         buildSchema S = Normal c -> toAPISchema c = Normal a ->
         parse q = Abrupt e ->
         fst (plan S q n w) = Normal (with_errors [e])
         /\ calls (snd (plan S q n w)) =
              calls w ++ [CallBuildSchema S; CallToAPISchema c; CallParse q])
  /\ (forall c a d e,
         buildSchema S = Normal c -> toAPISchema c = Normal a ->
         parse q = Normal d -> toGraphQLJSSchema a = Abrupt e ->
         fst (plan S q n w) = Normal (with_errors [e])
         /\ calls (snd (plan S q n w)) =
              calls w ++ [CallBuildSchema S; CallToAPISchema c; CallParse q;
                          CallToGraphQLJSSchema a])
  /\ (forall c a d g e,
         buildSchema S = Normal c -> toAPISchema c = Normal a ->
         parse q = Normal d -> toGraphQLJSSchema a = Normal g ->
         validate (Some g) d = Abrupt e ->
         fst (plan S q n w) = Normal (with_errors [e])
         /\ calls (snd (plan S q n w)) =
              calls w ++ [CallBuildSchema S; CallToAPISchema c; CallParse q;
                          CallToGraphQLJSSchema a; CallValidate (Some g) d])
  /\ (forall c a d g e,
         buildSchema S = Normal c -> toAPISchema c = Normal a ->
         parse q = Normal d -> toGraphQLJSSchema a = Normal g ->
         validate (Some g) d = Normal [] ->
         operationFromDocument (Some c) d n = Abrupt e ->
         fst (plan S q n w) = Normal (with_errors [e])
         /\ calls (snd (plan S q n w)) =
              calls w ++ [CallBuildSchema S; CallToAPISchema c; CallParse q;
                          CallToGraphQLJSSchema a; CallValidate (Some g) d;
                          CallOperationFromDocument (Some c) d n])
  /\ (forall c a d g o e,
         buildSchema S = Normal c -> toAPISchema c = Normal a ->
         parse q = Normal d -> toGraphQLJSSchema a = Normal g ->
         validate (Some g) d = Normal [] ->
         operationFromDocument (Some c) d n = Normal o ->
         newQueryPlanner (Some c) = Abrupt e ->
         fst (plan S q n w) = Normal (with_errors [e])
         /\ calls (snd (plan S q n w)) =
              calls w ++ [CallBuildSchema S; CallToAPISchema c; CallParse q;
                          CallToGraphQLJSSchema a; CallValidate (Some g) d;
                          CallOperationFromDocument (Some c) d n;
                          CallNewQueryPlanner (Some c)])
  /\ (forall c a d g o pl e,
         buildSchema S = Normal c -> toAPISchema c = Normal a ->
         parse q = Normal d -> toGraphQLJSSchema a = Normal g ->
         validate (Some g) d = Normal [] ->
         operationFromDocument (Some c) d n = Normal o ->
         newQueryPlanner (Some c) = Normal pl ->
         buildQueryPlan pl o = Abrupt e ->
         fst (plan S q n w) = Normal (with_errors [e])
         /\ calls (snd (plan S q n w)) =
              calls w ++ [CallBuildSchema S; CallToAPISchema c; CallParse q;
                          CallToGraphQLJSSchema a; CallValidate (Some g) d;
                          CallOperationFromDocument (Some c) d n;
                          CallNewQueryPlanner (Some c);
                          CallBuildQueryPlan pl o]).
Proof.
  repeat match goal with |- _ /\ _ => split end;
    run_with_known; split; reflexivity.
Qed.

(** X7.  Neither form of Plan throws, and neither calls [done]: each returns an
    object that has a non-empty [errors] array and no [data], or [data] and
    no [errors]. *)
Theorem plan_forms_return_errors_or_data (S q : string) (n : option string)
    (w : World L) :
  ((exists e l, fst (plan S q n w) = Normal (with_errors (e :: l)))
   \/ (exists p, fst (plan S q n w) = Normal (with_data p)))
  /\ delivered (snd (plan S q n w)) = delivered w
  /\ ((exists e l, fst (plan2 q n w) = Normal (with_errors (e :: l)))
      \/ (exists p, fst (plan2 q n w) = Normal (with_data p)))
  /\ delivered (snd (plan2 q n w)) = delivered w.
Proof.
  repeat match goal with |- _ /\ _ => split end;
    run_all;
    solve [ reflexivity
          | left; do 2 eexists; reflexivity
          | right; eexists; reflexivity ].
Qed.

(** X8.  The one-shot form reads nothing of the session: what it returns is the
    same whatever Create has established before. *)
Theorem plan_ignores_session (S q : string) (n : option string)
    (w1 w2 : World L) :
  fst (plan S q n w1) = fst (plan S q n w2).
Proof. run_all; reflexivity. Qed.

(** ** Create and Plan, composed *)

Lemma plan2_all_succeed (q : string) (n : option string) (w : World L)
    d o pl p :
  parse q = Normal d ->
  validate (SCHEMA (session w)) d = Normal [] ->
  operationFromDocument (COMPOSED_SCHEMA (session w)) d n = Normal o ->
  PLANNER (session w) = Some pl ->
  buildQueryPlan pl o = Normal p ->
  fst (plan2 q n w) = Normal (with_data p)
  /\ calls (snd (plan2 q n w)) =
       calls w ++ [CallParse q; CallValidate (SCHEMA (session w)) d;
                   CallOperationFromDocument (COMPOSED_SCHEMA (session w))
                     d n;
                   CallBuildQueryPlan pl o].
Proof. run_with_known. split; reflexivity. Qed.

(** X9.  Whether [create] succeeds does not depend on the session it finds, and a
    [create] that succeeds leaves a session that does not depend on it
    either: nothing of an earlier session survives. *)
Theorem successful_create_overwrites_session (S : string) (w1 w2 : World L) :
  fst (create S w1) = Normal tt ->
  fst (create S w2) = Normal tt
  /\ session (snd (create S w2)) = session (snd (create S w1)).
Proof.
  intros H.
  destruct (create_succeeds_inv _ _ H) as (c & a & g & p & Hb & Ha & Hg & Hp).
  rewrite (create_all_succeed S w1 Hb Ha Hg Hp).
  rewrite (create_all_succeed S w2 Hb Ha Hg Hp).
  split; reflexivity.
Qed.

(** X10.  A Create invocation whose schema does not compile changes nothing for
    Plan: every later Plan returns what it would have returned without that
    Create, also a plan built for the earlier schema. *)
Theorem failed_compilation_keeps_plan_results (S q : string)
    (n : option string) (w : World L) e :
  buildSchema S = Abrupt e ->
  fst (plan2 q n (snd (planner_create S w))) = fst (plan2 q n w).
Proof.
  intros Hb. apply plan2_result_depends_on_session.
  rewrite planner_create_after_create. cbn [snd session].
  rewrite (create_buildSchema_throws S w Hb). reflexivity.
Qed.

(** X11.  The operation name is looked at by [operationFromDocument] only: for a
    query that does not parse or does not pass validation, [plan2] returns
    the same errors and makes the same calls under every operation name. *)
Theorem operation_name_unused_before_resolution (q : string)
    (n1 n2 : option string) (w : World L) :
  (forall d, parse q = Normal d ->
             validate (SCHEMA (session w)) d <> Normal []) ->
  plan2 q n1 w = plan2 q n2 w.
Proof.
  intros Hv. unfold_bridge. cbn.
  destruct (parse q) as [d|e] eqn:Hp; cbn; [| reflexivity].
  specialize (Hv d eq_refl).
  destruct (validate (SCHEMA (session w)) d) as [[|e l]|e]; cbn;
    [ contradiction Hv; reflexivity | reflexivity | reflexivity ].
Qed.

(** X12.  With [PLANNER] unassigned the Plan invocation cannot answer with a plan,
    whatever the other two bindings hold: [plan2] returns a non-empty
    [errors] array and the script delivers it as [Err]. *)
Theorem plan_without_planner_delivers_error (q : string) (n : option string)
    (w : World L) :
  PLANNER (session w) = None ->
  exists e l,
    fst (plan2 q n w) = Normal (with_errors (e :: l))
    /\ delivered (snd (planner_plan q n w)) =
         delivered w ++ [envelope_Err (e :: l)].
Proof.
  intros Hpl. unfold_bridge. cbn.
  repeat next_call; try discriminate Hpl;
    do 2 eexists; split; reflexivity.
Qed.

(** X13.  After a Create invocation that failed in planner construction, Plan runs
    on a mixed session: it validates against the schema of the new schema
    string, resolves against the new composed schema, and builds the plan
    with the planner an earlier Create constructed. *)
Theorem plan_after_failed_planner_construction (S q : string)
    (n : option string) (w : World L) c a g e old d o p :
  buildSchema S = Normal c -> toAPISchema c = Normal a ->
  toGraphQLJSSchema a = Normal g -> newQueryPlanner (Some c) = Abrupt e ->
  PLANNER (session w) = Some old ->
  parse q = Normal d -> validate (Some g) d = Normal [] ->
  operationFromDocument (Some c) d n = Normal o ->
  buildQueryPlan old o = Normal p ->
  let w1 := snd (planner_create S w) in
  delivered w1 = delivered w ++ [envelope_Err [e]]
  /\ fst (plan2 q n w1) = Normal (with_data p)
  /\ calls (snd (plan2 q n w1)) =
       calls w1 ++ [CallParse q; CallValidate (Some g) d;
                    CallOperationFromDocument (Some c) d n;
                    CallBuildQueryPlan old o].
Proof.
  intros Hb Ha Hg Hp Hold Hq Hv Ho Hbq w1.
  assert (Hs : session w1 =
               {| SCHEMA := Some g; COMPOSED_SCHEMA := Some c;
                  PLANNER := Some old |}).
  { unfold w1. rewrite planner_create_after_create. cbn [snd session].
    rewrite (create_newQueryPlanner_throws S w Hb Ha Hg Hp).
    rewrite <- Hold. reflexivity. }
  split.
  - unfold w1. rewrite planner_create_after_create. cbn [snd delivered].
    rewrite (create_newQueryPlanner_throws S w Hb Ha Hg Hp). reflexivity.
  - pose proof (plan2_all_succeed q n w1 (d := d) (o := o) (pl := old)
                  (p := p)) as Hrun.
    rewrite Hs in Hrun. cbn in Hrun.
    exact (Hrun Hq Hv Ho eq_refl Hbq).
Qed.

(** X14.  A Create invocation on a schema string for which every step succeeds,
    followed by a Plan invocation whose stages succeed on what Create built,
    delivers [{Ok: null}] and then [{Ok: plan}], whatever session was there
    before. *)
Theorem create_then_plan_delivers_plan (S q : string) (n : option string)
    (w : World L) c a g pl d o p :
  buildSchema S = Normal c -> toAPISchema c = Normal a ->
  toGraphQLJSSchema a = Normal g -> newQueryPlanner (Some c) = Normal pl ->
  parse q = Normal d -> validate (Some g) d = Normal [] ->
  operationFromDocument (Some c) d n = Normal o ->
  buildQueryPlan pl o = Normal p ->
  bind (planner_create S) (fun _ => planner_plan q n) w =
    (Normal tt,
     {| session := {| SCHEMA := Some g; COMPOSED_SCHEMA := Some c;
                      PLANNER := Some pl |};
        calls := calls w ++ [CallBuildSchema S; CallToAPISchema c;
                             CallToGraphQLJSSchema a;
                             CallNewQueryPlanner (Some c); CallParse q;
                             CallValidate (Some g) d;
                             CallOperationFromDocument (Some c) d n;
                             CallBuildQueryPlan pl o];
        delivered := delivered w ++ [envelope_Ok JsNull;
                                     envelope_Ok (JsPlan p)] |}).
Proof. run_with_known. reflexivity. Qed.

(** ** A completion callback that throws *)

(** The scripts over [done] are the scripts of the bridge. *)
Lemma planner_create_with_done (S : string) :
  planner_create_with (L := L) done S = planner_create S.
Proof. reflexivity. Qed.

Lemma planner_plan_with_done (q : string) (n : option string) :
  planner_plan_with (L := L) done q n = planner_plan q n.
Proof. reflexivity. Qed.

(** X15.  The scripts call the callback inside their [try].  If the callback
    throws while it takes the envelope, the [catch] calls it a second time,
    with the callback's own failure as [{Err: [e0]}], and the failure of
    that second call leaves the script uncaught.  So a successful Create is
    then reported as [{Ok: null}] followed by [{Err: [e0]}]. *)
Theorem callback_failure_is_delivered_again (e0 : Err L) :
  (forall (S : string) (w : World L),
      fst (create S w) = Normal tt ->
      fst (planner_create_with (rejecting_done e0) S w) = Abrupt e0
      /\ delivered (snd (planner_create_with (rejecting_done e0) S w)) =
           delivered w ++ [envelope_Ok JsNull; envelope_Err [e0]])
  /\ (forall (q : string) (n : option string) (w : World L),
         fst (planner_plan_with (rejecting_done e0) q n w) = Abrupt e0
         /\ exists r,
              delivered (snd (planner_plan q n w)) = delivered w ++ [r]
              /\ delivered (snd (planner_plan_with (rejecting_done e0) q n w))
                 = delivered w ++ [r; envelope_Err [e0]]).
Proof.
  split.
  - intros S w H.
    destruct (create_succeeds_inv _ _ H)
      as (c & a & g & p & Hb & Ha & Hg & Hp).
    unfold planner_create_with, try_catch, bind, rejecting_done.
    rewrite (create_all_succeed S w Hb Ha Hg Hp). cbn.
    rewrite <- app_assoc. split; reflexivity.
  - intros q n w.
    unfold planner_plan_with, rejecting_done. run_all;
      (split; [reflexivity |]); eexists;
      (split; [reflexivity | cbn; rewrite <- app_assoc; reflexivity]).
Qed.

End Stages.

(** * Concrete runs with the sample library *)

(** Two validation errors on a prepared session and in the one-shot form. *)
Lemma validation_errors_stop_planning_witness :
  fst (plan2 (L := Sample.library) "{ unknown other }" None Sample.ready) =
    Normal (with_errors (L := Sample.library)
              [Sample.error "Cannot query field unknown";
               Sample.error "Cannot query field other"])
  /\ fst (plan (L := Sample.library) "supergraph" "{ unknown other }" None
            initial_world) =
       Normal (with_errors (L := Sample.library)
                 [Sample.error "Cannot query field unknown";
                  Sample.error "Cannot query field other"]).
Proof.
  destruct (validation_errors_stop_planning (L := Sample.library)
              "{ unknown other }" None) as (_ & _ & Hsession & Honeshot).
  split.
  - refine (proj1 (Hsession Sample.ready "{ unknown other }" _
                     eq_refl eq_refl _)).
    discriminate.
  - refine (proj1 (Honeshot "supergraph" initial_world "supergraph"
                     "api supergraph" "{ unknown other }"
                     "graphql-js api supergraph" _
                     eq_refl eq_refl eq_refl eq_refl eq_refl _)).
    discriminate.
Defined.

(** A repeated Plan on the prepared session. *)
Lemma plan2_repeatable_witness :
  session Sample.ready = session (snd (plan2 "{ me }" None Sample.ready))
  /\ fst (plan2 "{ me }" None Sample.ready) =
       fst (plan2 "{ me }" None (snd (plan2 "{ me }" None Sample.ready))).
Proof.
  split.
  - reflexivity.
  - apply (proj1 (plan2_repeatable (L := Sample.library) "{ me }" None)).
    reflexivity.
Defined.

(** Create on a schema that compiles and on one that does not. *)
Lemma create_invocation_outcome_witness :
  delivered (snd (planner_create (L := Sample.library) "supergraph"
                    initial_world)) = [envelope_Ok (L := Sample.library) JsNull]
  /\ delivered (snd (planner_create (L := Sample.library) "malformed"
                       initial_world)) =
       [envelope_Err (L := Sample.library) [Sample.error "Syntax Error in schema"]].
Proof.
  split.
  - refine (proj1 (create_invocation_outcome (L := Sample.library)
                     "supergraph" initial_world)
              "supergraph" "api supergraph" "graphql-js api supergraph"
              "planner for supergraph" eq_refl eq_refl eq_refl eq_refl).
  - refine (proj1 (proj2 (create_invocation_outcome (L := Sample.library)
                            "malformed" initial_world))
              (Sample.error "Syntax Error in schema") eq_refl).
Defined.

(** C4, as stated, fails: planner construction throws for a schema that
    compiles, after [COMPOSED_SCHEMA] and [SCHEMA] were assigned; the session
    then pairs the new schemas with the planner of the old one. *)
Lemma create_partially_mutates_session :
  ~ create_all_or_nothing (L := Sample.library) "not a supergraph"
      Sample.ready.
Proof.
  unfold create_all_or_nothing. vm_compute. discriminate.
Qed.

(** The session after planner construction threw. *)
Lemma create_session_effect_witness :
  fst (create (L := Sample.library) "not a supergraph" Sample.ready) =
    Abrupt (Sample.error "Not a supergraph schema")
  /\ session (snd (create (L := Sample.library) "not a supergraph"
                     Sample.ready)) =
       @Build_Session Sample.library
         (Some "graphql-js api not a supergraph") (Some "not a supergraph")
         (Some "planner for supergraph").
Proof.
  refine (proj2 (proj2 (proj2 (proj2
            (create_session_effect (L := Sample.library) "not a supergraph"
               Sample.ready))))
          "not a supergraph" "api not a supergraph"
          "graphql-js api not a supergraph"
          (Sample.error "Not a supergraph schema")
          eq_refl eq_refl eq_refl eq_refl).
Defined.

(** C3, as stated, fails where [create] throws.  Read as one sequence, the
    session form ends with the planner-construction failure while the
    one-shot form, which parses before it constructs a planner, reports the
    syntax error of the query.  Read as two invocations, a failed Create
    leaves the session of an earlier schema in place and Plan answers with a
    plan for it, while the one-shot form reports the schema error. *)
Lemma session_form_differs_when_create_fails :
  ~ forms_agree (L := Sample.library) "not a supergraph" "{" None
      initial_world
  /\ ~ forms_agree_across_invocations (L := Sample.library) "malformed"
         "{ me }" None Sample.ready.
Proof.
  split; vm_compute; discriminate.
Qed.

(** Both forms on a schema for which [create] succeeds. *)
Lemma session_form_agrees_after_successful_create_witness :
  fst (create (L := Sample.library) "supergraph" initial_world) = Normal tt
  /\ fst (bind (create (L := Sample.library) "supergraph")
            (fun _ => plan2 "{ me }" None) initial_world) =
       fst (plan (L := Sample.library) "supergraph" "{ me }" None
              initial_world).
Proof.
  split.
  - reflexivity.
  - exact (proj1 (session_form_agrees_after_successful_create
                    (L := Sample.library) "supergraph" "{ me }" None
                    initial_world initial_world eq_refl)).
Defined.

(** Plan on the freshly loaded module. *)
Lemma plan_before_create_delivers_error_witness :
  session (initial_world (L := Sample.library)) = uninitialized
  /\ exists e,
       delivered (snd (planner_plan (L := Sample.library) "{ me }" None
                         initial_world)) = [envelope_Err (L := Sample.library) [e]].
Proof.
  split; [reflexivity|].
  destruct (plan_before_create_delivers_error (L := Sample.library)
              "{ me }" None initial_world eq_refl)
    as (e & l & _ & _ & Hdelivered & Hsingle).
  assert (Hl : l = []).
  { apply Hsingle. intros d errs _ Hv. discriminate Hv. }
  subst l. exists e. exact Hdelivered.
Defined.

(** * Concrete runs of the stages *)

(** A valid query on the prepared session. *)
Lemma plan2_success_witness :
  fst (plan2 (L := Sample.library) "{ me }" None Sample.ready) =
    Normal (with_data (L := Sample.library)
              "plan of operation of { me } by planner for supergraph").
Proof.
  exact (proj1 (plan2_success (L := Sample.library) "{ me }" None
                  Sample.ready (d := "{ me }") (o := "operation of { me }")
                  (pl := "planner for supergraph")
                  eq_refl eq_refl eq_refl eq_refl eq_refl)).
Defined.

(** Two named operations and no operation name: resolution throws and the
    planner is not called. *)
Lemma plan2_reports_first_failure_witness :
  fst (plan2 (L := Sample.library) "query A { a } query B { b }" None
         Sample.ready) =
    Normal (with_errors (L := Sample.library)
              [Sample.error "Must provide operation name"])
  /\ calls (snd (plan2 (L := Sample.library) "query A { a } query B { b }"
                   None Sample.ready)) =
       [CallParse (L := Sample.library) "query A { a } query B { b }";
        CallValidate (L := Sample.library) (Some "graphql-js api supergraph")
          "query A { a } query B { b }";
        CallOperationFromDocument (L := Sample.library) (Some "supergraph")
          "query A { a } query B { b }" None].
Proof.
  exact (proj1 (proj2 (proj2
           (plan2_reports_first_failure (L := Sample.library)
              "query A { a } query B { b }" None Sample.ready)))
         "query A { a } query B { b }"
         (Sample.error "Must provide operation name")
         eq_refl eq_refl eq_refl).
Defined.

(** The [Ok] envelope of a Plan on the prepared session. *)
Lemma planner_plan_Ok_inversion_witness :
  exists d o pl p,
    Sample.parse "{ me }" = Normal d
    /\ Sample.validate (Some "graphql-js api supergraph") d = Normal []
    /\ Sample.operationFromDocument (Some "supergraph") d None = Normal o
    /\ Some "planner for supergraph" = Some pl
    /\ Sample.buildQueryPlan pl o = Normal p
    /\ JsPlan (L := Sample.library)
         "plan of operation of { me } by planner for supergraph" =
       JsPlan (L := Sample.library) p.
Proof.
  exact (@planner_plan_Ok_inversion Sample.library "{ me }" None
           Sample.ready
           (JsPlan (L := Sample.library)
              "plan of operation of { me } by planner for supergraph")
           eq_refl).
Defined.

(** The one-shot form on a valid schema and query. *)
Lemma plan_success_witness :
  fst (plan (L := Sample.library) "supergraph" "{ me }" None initial_world) =
    Normal (with_data (L := Sample.library)
              "plan of operation of { me } by planner for supergraph").
Proof.
  exact (proj1 (plan_success (L := Sample.library) "supergraph" "{ me }" None
                  initial_world (c := "supergraph") (a := "api supergraph")
                  (d := "{ me }") (g := "graphql-js api supergraph")
                  (o := "operation of { me }")
                  (pl := "planner for supergraph")
                  eq_refl eq_refl eq_refl eq_refl eq_refl eq_refl eq_refl
                  eq_refl)).
Defined.

(** The one-shot form on a schema that does not compile: the query, itself
    malformed, is not parsed. *)
Lemma plan_reports_first_failure_witness :
  fst (plan (L := Sample.library) "malformed" "{" None initial_world) =
    Normal (with_errors (L := Sample.library)
              [Sample.error "Syntax Error in schema"])
  /\ calls (snd (plan (L := Sample.library) "malformed" "{" None
                   initial_world)) =
       [CallBuildSchema (L := Sample.library) "malformed"].
Proof.
  exact (proj1 (plan_reports_first_failure (L := Sample.library) "malformed"
                  "{" None initial_world)
           (Sample.error "Syntax Error in schema") eq_refl).
Defined.

(** Create on the fresh module and on the prepared session. *)
Lemma successful_create_overwrites_session_witness :
  fst (create (L := Sample.library) "supergraph" initial_world) = Normal tt
  /\ fst (create (L := Sample.library) "supergraph" Sample.ready) = Normal tt
  /\ session (snd (create (L := Sample.library) "supergraph" Sample.ready)) =
       session (snd (create (L := Sample.library) "supergraph"
                       initial_world)).
Proof.
  split; [reflexivity|].
  exact (successful_create_overwrites_session (L := Sample.library)
           "supergraph" initial_world Sample.ready eq_refl).
Defined.

(** Plan after a Create whose schema does not compile. *)
Lemma failed_compilation_keeps_plan_results_witness :
  fst (plan2 (L := Sample.library) "{ me }" None
         (snd (planner_create (L := Sample.library) "malformed"
                 Sample.ready))) =
    fst (plan2 (L := Sample.library) "{ me }" None Sample.ready).
Proof.
  exact (failed_compilation_keeps_plan_results (L := Sample.library)
           "malformed" "{ me }" None Sample.ready
           (e := Sample.error "Syntax Error in schema") eq_refl).
Defined.

(** An invalid query under two operation names. *)
Lemma operation_name_unused_before_resolution_witness :
  plan2 (L := Sample.library) "{ unknown other }" None Sample.ready =
    plan2 (L := Sample.library) "{ unknown other }" (Some "A") Sample.ready.
Proof.
  apply (operation_name_unused_before_resolution (L := Sample.library)
           "{ unknown other }" None (Some "A") Sample.ready).
  intros d Hd. injection Hd as <-. discriminate.
Defined.

(** Plan after a Create that could not construct a planner, on a module that
    had no session. *)
Lemma plan_without_planner_delivers_error_witness :
  exists e l,
    fst (plan2 (L := Sample.library) "{ me }" None
           (snd (planner_create (L := Sample.library) "not a supergraph"
                   initial_world))) =
      Normal (with_errors (e :: l))
    /\ delivered
         (snd (planner_plan (L := Sample.library) "{ me }" None
                 (snd (planner_create (L := Sample.library)
                         "not a supergraph" initial_world)))) =
       delivered (snd (planner_create (L := Sample.library)
                         "not a supergraph" initial_world))
       ++ [envelope_Err (e :: l)].
Proof.
  exact (plan_without_planner_delivers_error (L := Sample.library) "{ me }"
           None
           (snd (planner_create (L := Sample.library) "not a supergraph"
                   initial_world))
           eq_refl).
Defined.

(** Plan after a Create that could not construct a planner, on the prepared
    session: the plan comes from the planner for ["supergraph"]. *)
Lemma plan_after_failed_planner_construction_witness :
  fst (plan2 (L := Sample.library) "{ me }" None
         (snd (planner_create (L := Sample.library) "not a supergraph"
                 Sample.ready))) =
    Normal (with_data (L := Sample.library)
              "plan of operation of { me } by planner for supergraph").
Proof.
  exact (proj1 (proj2
           (plan_after_failed_planner_construction (L := Sample.library)
              "not a supergraph" "{ me }" None Sample.ready
              (c := "not a supergraph") (a := "api not a supergraph")
              (g := "graphql-js api not a supergraph")
              (e := Sample.error "Not a supergraph schema")
              (old := "planner for supergraph") (d := "{ me }")
              (o := "operation of { me }")
              eq_refl eq_refl eq_refl eq_refl eq_refl eq_refl eq_refl
              eq_refl eq_refl))).
Defined.

(** Create and Plan on the fresh module. *)
Lemma create_then_plan_delivers_plan_witness :
  delivered
    (snd (bind (planner_create (L := Sample.library) "supergraph")
            (fun _ => planner_plan "{ me }" None) initial_world)) =
    [envelope_Ok (L := Sample.library) JsNull;
     envelope_Ok (L := Sample.library)
       (JsPlan (L := Sample.library)
          "plan of operation of { me } by planner for supergraph")].
Proof.
  exact (f_equal (fun r => delivered (snd r))
           (create_then_plan_delivers_plan (L := Sample.library) "supergraph"
              "{ me }" None initial_world (c := "supergraph")
              (a := "api supergraph") (g := "graphql-js api supergraph")
              (pl := "planner for supergraph") (d := "{ me }")
              (o := "operation of { me }")
              eq_refl eq_refl eq_refl eq_refl eq_refl eq_refl eq_refl
              eq_refl)).
Defined.

(** A successful Create reported through a callback that throws. *)
Lemma callback_failure_is_delivered_again_witness :
  fst (create (L := Sample.library) "supergraph" initial_world) = Normal tt
  /\ delivered
       (snd (planner_create_with (L := Sample.library)
               (rejecting_done (L := Sample.library)
                  (Sample.error "cannot serialize"))
               "supergraph" initial_world)) =
     [envelope_Ok (L := Sample.library) JsNull;
      envelope_Err (L := Sample.library)
        [Sample.error "cannot serialize"]].
Proof.
  split; [reflexivity|].
  exact (proj2 (proj1 (callback_failure_is_delivered_again
                         (L := Sample.library)
                         (Sample.error "cannot serialize"))
                  "supergraph" initial_world eq_refl)).
Defined.
